(** * The task / done resource model of the FastAPI example

    Shallow embedding of [api/routers/done.py] (the two handlers
    [mark_task_as_done] and [unmark_task_as_done]) together with the
    persistence layer they await.  The handlers are written as trees of
    awaited persistence calls, exactly one node per [await] of the source,
    and are run against a store made of the two tables [tasks] and [done]. *)

From Stdlib Require Import ZArith List String Bool Lia DecimalString DecimalPos DecimalZ.
Import ListNotations.
Open Scope string_scope.
Open Scope list_scope.
Open Scope Z_scope.

(** ** Data model *)

(** A row of the table [tasks(id PK, title)]. *)
Record Task : Type := mkTask { id : Z; title : string }.

(** A row of the table [done(task_id, own id)].  [rowid] is the identity of
    the persisted record, [task_id] the task it marks. *)
Record Done : Type := mkDone { rowid : Z; task_id : Z }.

(** The task representation sent to clients: [{id, title, done}]. *)
Record TaskView : Type := mkTaskView { view_id : Z; view_title : string; view_done : bool }.

(** The persistence store shared by all requests. *)
Record Store : Type := mkStore { tasks : list Task; dones : list Done }.

Definition empty_db : Store := mkStore [] [].

(** The values the Python variable [done] of the handlers can hold: the
    annotation [task_model.Done] is not enforced at run time, and the source
    tests the value against [None] and against [int]. *)
Inductive pyval : Type :=
| PyNone
| PyInt (n : Z)
| PyDone (d : Done).

(** [done is not None] *)
Definition is_not_None (v : pyval) : bool :=
  match v with PyNone => false | _ => true end.

(** [fastapi.HTTPException(status_code=..., detail=...)] *)
Record HTTPException : Type := mkHTTPException { status_code : Z; detail : string }.

(** [str(n)] for a Python int, as used by the f-string of the source. *)
Definition str (n : Z) : string := NilZero.string_of_int (Z.to_int n).

(** ** Awaited persistence calls *)

(** One constructor per function of [api.cruds] a handler awaits; the index
    is the type of the awaited result. *)
Inductive CrudOp : Type -> Type :=
| GetDone (task_id : Z) : CrudOp pyval
| CreateDone (task_id : Z) : CrudOp Done
| DeleteDone (original : Done) : CrudOp unit
| GetTask (task_id : Z) : CrudOp (option Task)
| CreateTask (title : string) : CrudOp Task
| UpdateTask (new_title : string) (original : Task) : CrudOp Task
| GetTasksWithDone : CrudOp (list TaskView).

(** A handler body: it returns, raises an [HTTPException], or awaits a
    persistence call and continues with its result. *)
Inductive Handler (A : Type) : Type :=
| Return (a : A)
| Raise (e : HTTPException)
| Await {X : Type} (op : CrudOp X) (k : X -> Handler A).

Arguments Return {A} a.
Arguments Raise {A} e.
Arguments Await {A X} op k.

Notation "x <- 'await' op ;; k" := (Await op (fun x => k))
  (at level 61, op at next level, right associativity).

(** ** The handlers of [api/routers/done.py] *)

Module done_router.

(** [@router.put("/tasks/{task_id}/done")] *)
Definition mark_task_as_done (task_id : Z) : Handler Done :=
  done <- await (GetDone task_id) ;;
  if is_not_None done
  then Raise (mkHTTPException 400 "Done already exists")
  else
    created <- await (CreateDone task_id) ;;
    Return created.

(** [@router.delete("/tasks/{task_id}/done")] *)
Definition unmark_task_as_done (task_id : Z) : Handler unit :=
  done <- await (GetDone task_id) ;;
  match done with
  | PyInt n => Raise (mkHTTPException 404 ("unchi~^" ++ str n)%string)
  | PyNone => Raise (mkHTTPException 404 "Done not found")
  | PyDone original =>
      r <- await (DeleteDone original) ;;
      Return r
  end.

End done_router.

(** ** The persistence layer *)

(** The id the store assigns to a new row: one more than the largest id in
    use, [1] in an empty table. *)
Definition fresh_id (used : list Z) : Z := 1 + fold_right Z.max 0 used.

Module done_crud.

(** Modelled from the spec: [api/cruds/done.py] is not among the sources.
    [get_done(task_id)] reads the current marker state and returns the
    marker of [task_id], or absent. *)
Definition get_done (db : Store) (tid : Z) : pyval :=
  match find (fun d => task_id d =? tid) (dones db) with
  | Some d => PyDone d
  | None => PyNone
  end.

(** Modelled from the spec: [create_done] of [api/cruds/done.py], which
    creates a Done row for [task_id] and returns the created marker.  No
    uniqueness constraint and no reference to [tasks] is checked. *)
Definition create_done (db : Store) (tid : Z) : Done * Store :=
  let d := mkDone (fresh_id (map rowid (dones db))) tid in
  (d, mkStore (tasks db) (dones db ++ [d])).

(** Modelled from the spec: [delete_done] of [api/cruds/done.py], which
    deletes the marker row identified by the record passed as [original]
    and returns nothing. *)
Definition delete_done (db : Store) (original : Done) : unit * Store :=
  (tt, mkStore (tasks db)
         (filter (fun d => negb (rowid d =? rowid original)) (dones db))).

End done_crud.

Module task_crud.

(** The derived [done] flag of a task: whether a Done marker exists for
    its id. *)
Definition has_done (db : Store) (tid : Z) : bool :=
  existsb (fun d => task_id d =? tid) (dones db).

Definition view (db : Store) (t : Task) : TaskView :=
  mkTaskView (id t) (title t) (has_done db (id t)).

(** Modelled from the spec: [create(title)] of the Task component
    ([api/cruds/task.py] is not among the sources) persists a new row with
    the given title and an id assigned by the store. *)
Definition create_task (db : Store) (new_title : string) : Task * Store :=
  let t := mkTask (fresh_id (map id (tasks db))) new_title in
  (t, mkStore (tasks db ++ [t]) (dones db)).

(** Modelled from the spec: [get(id)] of the Task component, lookup by id. *)
Definition get_task (db : Store) (tid : Z) : option Task :=
  find (fun t => id t =? tid) (tasks db).

(** Modelled from the spec: [list()] of the Task component returns all
    tasks in insertion order, each annotated with whether a Done marker
    exists. *)
Definition get_tasks_with_done (db : Store) : list TaskView :=
  map (view db) (tasks db).

(** Modelled from the spec: [update] of the Task component overwrites the
    title of the row of [original] and returns the updated record. *)
Definition update_task (db : Store) (new_title : string) (original : Task)
  : Task * Store :=
  let t := mkTask (id original) new_title in
  (t, mkStore (map (fun r => if id r =? id original then t else r) (tasks db))
        (dones db)).

End task_crud.

(** ** Running a handler *)

Inductive Outcome (A : Type) : Type :=
| Ok (a : A)
| Failed (e : HTTPException).

Arguments Ok {A} a.
Arguments Failed {A} e.

(** A persistence call as it appears in the log of a request. *)
Inductive Call : Type :=
| Called {X : Type} (op : CrudOp X).

(** Calls that write to the store. *)
Definition is_write (c : Call) : bool :=
  match c with
  | Called (CreateDone _) | Called (DeleteDone _)
  | Called (CreateTask _) | Called (UpdateTask _ _) => true
  | _ => false
  end.

Section Run.

(** The handlers are run against any persistence layer: a store type and
    the effect of every awaited call on it. *)
Context {S : Type}.
Variable exec : forall X : Type, CrudOp X -> S -> X * S.

(** Runs a handler to completion: its outcome, the final store and the
    log of the persistence calls it awaited, in order. *)
Fixpoint run {A : Type} (h : Handler A) (db : S) : Outcome A * S * list Call :=
  match h with
  | Return a => (Ok a, db, [])
  | Raise e => (Failed e, db, [])
  | Await op k =>
      let '(x, db1) := exec _ op db in
      let '(o, db2, log) := run (k x) db1 in
      (o, db2, Called op :: log)
  end.

(** One scheduling step: the next awaited call is performed and the
    handler is suspended again with its result. *)
Definition step {A : Type} (h : Handler A) (db : S) : Handler A * S :=
  match h with
  | Await op k => let '(x, db1) := exec _ op db in (k x, db1)
  | _ => (h, db)
  end.

End Run.

(** The persistence layer of the application. *)
Definition exec_db (X : Type) (op : CrudOp X) (db : Store) : X * Store :=
  match op in CrudOp X return X * Store with
  | GetDone tid => (done_crud.get_done db tid, db)
  | CreateDone tid => done_crud.create_done db tid
  | DeleteDone original => done_crud.delete_done db original
  | GetTask tid => (task_crud.get_task db tid, db)
  | CreateTask new_title => task_crud.create_task db new_title
  | UpdateTask new_title original => task_crud.update_task db new_title original
  | GetTasksWithDone => (task_crud.get_tasks_with_done db, db)
  end.

Definition outcome {A S : Type} (r : Outcome A * S * list Call) : Outcome A := fst (fst r).
Definition final {A S : Type} (r : Outcome A * S * list Call) : S := snd (fst r).
Definition calls {A S : Type} (r : Outcome A * S * list Call) : list Call := snd r.

(** Modelled from the spec: the HTTP boundary (the framework is not among
    the sources).  A handler that returns answers 200; a raised
    [HTTPException] answers its own status code. *)
Definition http_status {A : Type} (o : Outcome A) : Z :=
  match o with
  | Ok _ => 200
  | Failed e => status_code e
  end.

(** ** The handlers of the Task component *)

Module task_router.

(** Modelled from the spec: [POST /tasks] ([api/routers/task.py] is not
    among the sources) creates a task and returns it. *)
Definition create_task (new_title : string) : Handler Task :=
  t <- await (CreateTask new_title) ;;
  Return t.

(** Modelled from the spec: [GET /tasks] returns the list of tasks with
    their done flag. *)
Definition list_tasks : Handler (list TaskView) :=
  l <- await GetTasksWithDone ;;
  Return l.

(** Modelled from the spec: [PUT /tasks/{id}] fails with NotFound (404) if
    the id does not exist; otherwise it overwrites the title and returns
    the updated record. *)
Definition update_task (tid : Z) (new_title : string) : Handler Task :=
  task <- await (GetTask tid) ;;
  match task with
  | None => Raise (mkHTTPException 404 "Task not found")
  | Some original =>
      t <- await (UpdateTask new_title original) ;;
      Return t
  end.

End task_router.

(** ** The state machine of a marker and the requests of the API *)

Inductive DoneState : Type := ABSENT | MARKED.

Definition done_state (db : Store) (tid : Z) : DoneState :=
  if task_crud.has_done db tid then MARKED else ABSENT.

(** The Done rows of a task id. *)
Definition done_rows (db : Store) (tid : Z) : list Done :=
  filter (fun d => task_id d =? tid) (dones db).

Inductive Request : Type :=
| POST_tasks (new_title : string)
| GET_tasks
| PUT_task (tid : Z) (new_title : string)
| PUT_done (tid : Z)
| DELETE_done (tid : Z).

(** Serving one request: the status code answered and the store left. *)
Definition serve (r : Request) (db : Store) : Z * Store :=
  match r with
  | POST_tasks new_title =>
      let res := run exec_db (task_router.create_task new_title) db in
      (http_status (outcome res), final res)
  | GET_tasks =>
      let res := run exec_db task_router.list_tasks db in
      (http_status (outcome res), final res)
  | PUT_task tid new_title =>
      let res := run exec_db (task_router.update_task tid new_title) db in
      (http_status (outcome res), final res)
  | PUT_done tid =>
      let res := run exec_db (done_router.mark_task_as_done tid) db in
      (http_status (outcome res), final res)
  | DELETE_done tid =>
      let res := run exec_db (done_router.unmark_task_as_done tid) db in
      (http_status (outcome res), final res)
  end.

(** Serving a sequence of requests one after the other. *)
Fixpoint serve_all (rs : list Request) (db : Store) : list Z * Store :=
  match rs with
  | [] => ([], db)
  | r :: rs' =>
      let '(st, db1) := serve r db in
      let '(sts, db2) := serve_all rs' db1 in
      (st :: sts, db2)
  end.

(** The stores the API can be in: the empty store, and every store left by
    serving a request in a reachable store. *)
Inductive reachable : Store -> Prop :=
| reachable_empty : reachable empty_db
| reachable_serve (r : Request) (db : Store) :
    reachable db -> reachable (snd (serve r db)).

(** ** The invariant of the store and the stores of the examples *)

(** No two Done rows mark the same task, and the row identities and the
    task ids are unique. *)
Definition Inv (db : Store) : Prop :=
  NoDup (map task_id (dones db))
  /\ NoDup (map rowid (dones db))
  /\ NoDup (map id (tasks db)).

(** The store after [POST /tasks] and [PUT /tasks/1/done] on the empty
    store: one task, marked done. *)
Definition db_marked : Store :=
  snd (serve (PUT_done 1) (snd (serve (POST_tasks "A") empty_db))).

(** The store after [PUT /tasks/1/done] on the empty store: a marker
    whose task does not exist.  The next task created gets id 1 and finds
    the marker in place. *)
Definition db_orphan : Store := snd (serve (PUT_done 1) empty_db).

(** A persistence layer whose lookup answers a bare integer: the branch
    [type(done) is int] of the source raises 404 with the value in the
    detail. *)
Definition exec_int (n : Z) (X : Type) (op : CrudOp X) (db : Store) : X * Store :=
  match op in CrudOp X return X * Store with
  | GetDone _ => (PyInt n, db)
  | op' => exec_db _ op' db
  end.

(** ** Further notions about request sequences *)

(** A store has no orphan marker when every Done row marks a task of the
    [tasks] table. *)
Definition no_orphans (db : Store) : Prop :=
  forall d, In d (dones db) -> In (task_id d) (map id (tasks db)).

(** The stores reached when clients only mark tasks that exist. *)
Inductive reachable_marking_tasks : Store -> Prop :=
| marking_tasks_empty : reachable_marking_tasks empty_db
| marking_tasks_serve (r : Request) (db : Store) :
    reachable_marking_tasks db ->
    (forall tid, r = PUT_done tid -> task_crud.get_task db tid <> None) ->
    reachable_marking_tasks (snd (serve r db)).

(** The change in the number of Done rows that the answer to a request
    announces: one more after a successful mark, one less after a
    successful unmark. *)
Definition marker_delta (r : Request) (status : Z) : Z :=
  match r with
  | PUT_done _ => if status =? 200 then 1 else 0
  | DELETE_done _ => if status =? 200 then -1 else 0
  | _ => 0
  end.

Fixpoint marker_deltas (rs : list Request) (statuses : list Z) : Z :=
  match rs, statuses with
  | r :: rs', st :: sts' => marker_delta r st + marker_deltas rs' sts'
  | _, _ => 0
  end.

(** [n] rounds of mark then unmark on one task id. *)
Fixpoint toggles (tid : Z) (n : nat) : list Request :=
  match n with
  | O => []
  | S n' => PUT_done tid :: DELETE_done tid :: toggles tid n'
  end.

(** ** Facts about the persistence layer *)

Lemma fresh_id_above (used : list Z) (x : Z) : In x used -> x < fresh_id used.
Proof.
  unfold fresh_id. induction used as [|y used IH]; cbn [fold_right In]; [tauto|].
  intros [->|Hx]; [lia|]. specialize (IH Hx). lia.
Qed.

Lemma fresh_id_not_used (used : list Z) : ~ In (fresh_id used) used.
Proof. intros H. apply fresh_id_above in H. lia. Qed.

Lemma find_none_iff {A : Type} (f : A -> bool) (l : list A) :
  find f l = None <-> forall x, In x l -> f x = false.
Proof.
  split; [apply find_none|].
  induction l as [|a l IH]; simpl; [reflexivity|]. intros H.
  rewrite (H a (or_introl eq_refl)). apply IH. intros x Hx. apply H. now right.
Qed.

Lemma existsb_find {A : Type} (f : A -> bool) (l : list A) :
  existsb f l = match find f l with Some _ => true | None => false end.
Proof. induction l as [|a l IH]; simpl; [reflexivity|]. destruct (f a); auto. Qed.

Lemma filter_nil_find {A : Type} (f : A -> bool) (l : list A) :
  filter f l = [] <-> find f l = None.
Proof.
  induction l as [|a l IH]; simpl; [tauto|].
  destruct (f a); [split; discriminate | exact IH].
Qed.

Lemma get_done_cases (db : Store) (tid : Z) :
  (done_crud.get_done db tid = PyNone /\ find (fun d => task_id d =? tid) (dones db) = None)
  \/ (exists d, done_crud.get_done db tid = PyDone d
                /\ find (fun d => task_id d =? tid) (dones db) = Some d
                /\ In d (dones db) /\ task_id d = tid).
Proof.
  unfold done_crud.get_done.
  destruct (find (fun d => task_id d =? tid) (dones db)) as [d|] eqn:E.
  - right. exists d. apply find_some in E as H. destruct H as [Hin Ht].
    apply Z.eqb_eq in Ht. auto.
  - left. auto.
Qed.

Lemma get_done_None_iff (db : Store) (tid : Z) :
  done_crud.get_done db tid = PyNone
  <-> forall d, In d (dones db) -> task_id d <> tid.
Proof.
  unfold done_crud.get_done. split.
  - destruct (find _ _) eqn:E; [discriminate|]. intros _ d Hd.
    apply (find_none _ _ E) in Hd. now apply Z.eqb_neq.
  - intros H. destruct (find _ _) as [d|] eqn:E; [|reflexivity].
    apply find_some in E. destruct E as [Hin Ht]. apply Z.eqb_eq in Ht.
    now apply H in Hin.
Qed.

Lemma get_done_not_int (db : Store) (tid n : Z) :
  done_crud.get_done db tid <> PyInt n.
Proof. unfold done_crud.get_done. destruct (find _ _); discriminate. Qed.

Lemma has_done_get_done (db : Store) (tid : Z) :
  task_crud.has_done db tid = is_not_None (done_crud.get_done db tid).
Proof.
  unfold task_crud.has_done, done_crud.get_done. rewrite existsb_find.
  destruct (find _ _); reflexivity.
Qed.

Lemma has_done_true_iff (db : Store) (tid : Z) :
  task_crud.has_done db tid = true
  <-> exists d, In d (dones db) /\ task_id d = tid.
Proof.
  unfold task_crud.has_done. rewrite existsb_exists.
  split; intros [d [Hin Ht]]; exists d; split; auto; now apply Z.eqb_eq.
Qed.

(** ** The handlers of the done router on the application store *)

Lemma run_mark_absent (db : Store) (tid : Z) :
  done_crud.get_done db tid = PyNone ->
  run exec_db (done_router.mark_task_as_done tid) db
  = (Ok (fst (done_crud.create_done db tid)),
     snd (done_crud.create_done db tid),
     [Called (GetDone tid); Called (CreateDone tid)]).
Proof. intros H. simpl. rewrite H. reflexivity. Qed.

Lemma run_mark_marked (db : Store) (tid : Z) (v : pyval) :
  done_crud.get_done db tid = v -> is_not_None v = true ->
  run exec_db (done_router.mark_task_as_done tid) db
  = (Failed (mkHTTPException 400 "Done already exists"), db, [Called (GetDone tid)]).
Proof. intros H Hv. simpl. rewrite H, Hv. reflexivity. Qed.

Lemma run_unmark_absent (db : Store) (tid : Z) :
  done_crud.get_done db tid = PyNone ->
  run exec_db (done_router.unmark_task_as_done tid) db
  = (Failed (mkHTTPException 404 "Done not found"), db, [Called (GetDone tid)]).
Proof. intros H. simpl. rewrite H. reflexivity. Qed.

Lemma run_unmark_marked (db : Store) (tid : Z) (d : Done) :
  done_crud.get_done db tid = PyDone d ->
  run exec_db (done_router.unmark_task_as_done tid) db
  = (Ok tt, snd (done_crud.delete_done db d),
     [Called (GetDone tid); Called (DeleteDone d)]).
Proof. intros H. simpl. rewrite H. reflexivity. Qed.

(** ** The invariant of the store *)

Lemma NoDup_map_snoc {A : Type} (f : A -> Z) (l : list A) (a : A) :
  NoDup (map f l) -> ~ In (f a) (map f l) -> NoDup (map f (l ++ [a])).
Proof.
  intros Hl Ha. rewrite map_app. simpl.
  apply NoDup_app; auto.
  - repeat constructor. simpl. tauto.
  - intros x Hx [<-|[]]. exact (Ha Hx).
Qed.

Lemma NoDup_map_filter {A : Type} (f : A -> Z) (p : A -> bool) (l : list A) :
  NoDup (map f l) -> NoDup (map f (filter p l)).
Proof.
  induction l as [|a l IH]; simpl; [auto|]. intros H. inversion H; subst.
  destruct (p a); simpl; auto. constructor; auto.
  intros Hin. apply in_map_iff in Hin. destruct Hin as [x [Hx Hin]].
  apply filter_In in Hin. destruct Hin as [Hin _].
  apply H2. rewrite <- Hx. now apply in_map.
Qed.

Lemma NoDup_map_count {A : Type} (f : A -> Z) (l : list A) (z : Z) :
  NoDup (map f l) -> (List.length (filter (fun a => (f a =? z)%Z) l) <= 1)%nat.
Proof.
  induction l as [|a l IH]; simpl; [lia|]. intros H. inversion H; subst.
  destruct (f a =? z) eqn:E; [|auto].
  apply Z.eqb_eq in E. simpl.
  assert (Hnil : filter (fun a0 => f a0 =? z) l = []).
  { apply filter_nil_find, find_none_iff. intros x Hx. apply Z.eqb_neq.
    intros Hz. apply H2. rewrite E, <- Hz. now apply in_map. }
  rewrite Hnil. simpl. lia.
Qed.

Lemma Inv_empty : Inv empty_db.
Proof. repeat split; constructor. Qed.

Lemma Inv_create_done (db : Store) (tid : Z) :
  Inv db -> done_crud.get_done db tid = PyNone ->
  Inv (snd (done_crud.create_done db tid)).
Proof.
  intros (Ht & Hr & Hi) Hnone. unfold Inv. simpl. repeat split; auto.
  - apply NoDup_map_snoc; auto. simpl. intros Hin.
    apply in_map_iff in Hin. destruct Hin as [d [Hd Hin]].
    exact (proj1 (get_done_None_iff db tid) Hnone d Hin Hd).
  - apply NoDup_map_snoc; auto. simpl. apply fresh_id_not_used.
Qed.

Lemma Inv_delete_done (db : Store) (d : Done) :
  Inv db -> Inv (snd (done_crud.delete_done db d)).
Proof.
  intros (Ht & Hr & Hi). unfold Inv. simpl.
  repeat split; auto using NoDup_map_filter.
Qed.

Lemma Inv_create_task (db : Store) (new_title : string) :
  Inv db -> Inv (snd (task_crud.create_task db new_title)).
Proof.
  intros (Ht & Hr & Hi). unfold Inv. simpl. repeat split; auto.
  apply NoDup_map_snoc; auto. simpl. apply fresh_id_not_used.
Qed.

Lemma update_task_ids (db : Store) (new_title : string) (t : Task) :
  map id (tasks (snd (task_crud.update_task db new_title t))) = map id (tasks db).
Proof.
  simpl. rewrite map_map. apply map_ext. intros r.
  destruct (id r =? id t) eqn:E; [|reflexivity].
  apply Z.eqb_eq in E. simpl. auto.
Qed.

Lemma Inv_update_task (db : Store) (new_title : string) (t : Task) :
  Inv db -> Inv (snd (task_crud.update_task db new_title t)).
Proof.
  intros (Ht & Hr & Hi). unfold Inv. rewrite update_task_ids. simpl. auto.
Qed.

Lemma Inv_serve (r : Request) (db : Store) : Inv db -> Inv (snd (serve r db)).
Proof.
  intros H. destruct r as [new_title| |tid new_title|tid|tid].
  - now apply Inv_create_task.
  - exact H.
  - simpl. destruct (task_crud.get_task db tid) as [t|]; simpl; [|exact H].
    now apply Inv_update_task.
  - change (Inv (final (run exec_db (done_router.mark_task_as_done tid) db))).
    destruct (get_done_cases db tid) as [[E _]|[d [E _]]].
    + rewrite (run_mark_absent _ _ E). now apply Inv_create_done.
    + rewrite (run_mark_marked _ _ _ E eq_refl). exact H.
  - change (Inv (final (run exec_db (done_router.unmark_task_as_done tid) db))).
    destruct (get_done_cases db tid) as [[E _]|[d [E _]]].
    + rewrite (run_unmark_absent _ _ E). exact H.
    + rewrite (run_unmark_marked _ _ _ E). now apply Inv_delete_done.
Qed.

Lemma reachable_Inv (db : Store) : reachable db -> Inv db.
Proof. induction 1; [apply Inv_empty | now apply Inv_serve]. Qed.

(** ** The marker invariant *)

Lemma reachable_db_marked : reachable db_marked.
Proof. unfold db_marked. apply reachable_serve, reachable_serve, reachable_empty. Qed.

(** C1: in every store reachable by serving requests (mark and unmark among
    them), every task id has at most one Done row, and the [done] flag
    reported for a task, in the task list and by the lookup of the done
    router, holds exactly when a Done row exists for its id. *)
Theorem at_most_one_done_row (db : Store) (tid : Z) :
  reachable db ->
  (List.length (done_rows db tid) <= 1)%nat
  /\ (forall v, In v (task_crud.get_tasks_with_done db) ->
        (view_done v = true <-> exists d, In d (dones db) /\ task_id d = view_id v))
  /\ (is_not_None (done_crud.get_done db tid) = true
        <-> exists d, In d (dones db) /\ task_id d = tid).
Proof.
  intros Hr. apply reachable_Inv in Hr. destruct Hr as (Ht & _ & _).
  split; [|split].
  - unfold done_rows. now apply NoDup_map_count.
  - intros v Hv. unfold task_crud.get_tasks_with_done in Hv.
    apply in_map_iff in Hv. destruct Hv as [t [<- _]]. simpl.
    apply has_done_true_iff.
  - rewrite <- has_done_get_done. apply has_done_true_iff.
Qed.

Lemma at_most_one_done_row_witness :
  reachable db_marked
  /\ (List.length (done_rows db_marked 1) <= 1)%nat
  /\ (forall v, In v (task_crud.get_tasks_with_done db_marked) ->
        (view_done v = true <-> exists d, In d (dones db_marked) /\ task_id d = view_id v))
  /\ (is_not_None (done_crud.get_done db_marked 1) = true
        <-> exists d, In d (dones db_marked) /\ task_id d = 1).
Proof.
  split; [exact reachable_db_marked|].
  exact (at_most_one_done_row db_marked 1 reachable_db_marked).
Defined.

(** ** Marking *)

(** C2: [mark_task_as_done] fails with 400 "Done already exists" exactly
    when the lookup returns an existing marker; otherwise it creates one Done
    row for the task id, taking it from ABSENT to MARKED, and returns the
    created marker with status 200. *)
Theorem mark_conflict_or_create (db : Store) (tid : Z) :
  let res := run exec_db (done_router.mark_task_as_done tid) db in
  (outcome res = Failed (mkHTTPException 400 "Done already exists")
     <-> exists d, done_crud.get_done db tid = PyDone d)
  /\ ((exists d, done_crud.get_done db tid = PyDone d) ->
        http_status (outcome res) = 400 /\ final res = db)
  /\ (~ (exists d, done_crud.get_done db tid = PyDone d) ->
        exists d,
          outcome res = Ok d
          /\ http_status (outcome res) = 200
          /\ task_id d = tid
          /\ dones (final res) = dones db ++ [d]
          /\ tasks (final res) = tasks db
          /\ done_state db tid = ABSENT
          /\ done_state (final res) tid = MARKED
          /\ done_rows (final res) tid = [d]).
Proof.
  intros res. subst res.
  destruct (get_done_cases db tid) as [[E Hf]|[d [E _]]].
  - rewrite (run_mark_absent _ _ E). unfold outcome, final. simpl fst. simpl snd.
    split; [|split].
    + split; [discriminate|]. intros [d Hd]. congruence.
    + intros [d Hd]. congruence.
    + intros _. eexists. split; [reflexivity|].
      split; [reflexivity|]. split; [reflexivity|].
      split; [reflexivity|]. split; [reflexivity|].
      assert (Hnil : filter (fun d => task_id d =? tid) (dones db) = [])
        by now apply filter_nil_find.
      split; [|split].
      * unfold done_state. rewrite has_done_get_done, E. reflexivity.
      * unfold done_state, task_crud.has_done. simpl.
        rewrite existsb_app. simpl. rewrite Z.eqb_refl.
        rewrite orb_true_r. reflexivity.
      * unfold done_rows. simpl. rewrite filter_app, Hnil. simpl.
        rewrite Z.eqb_refl. reflexivity.
  - rewrite (run_mark_marked _ _ _ E eq_refl). unfold outcome, final. simpl.
    split; [|split].
    + split; eauto.
    + auto.
    + intros H. exfalso. eauto.
Qed.

Lemma mark_conflict_or_create_witness :
  http_status (outcome (run exec_db (done_router.mark_task_as_done 1) db_marked)) = 400
  /\ exists d, outcome (run exec_db (done_router.mark_task_as_done 1) empty_db) = Ok d
               /\ done_rows (final (run exec_db (done_router.mark_task_as_done 1) empty_db)) 1 = [d].
Proof.
  split.
  - apply (mark_conflict_or_create db_marked 1).
    exists (mkDone 1 1). reflexivity.
  - destruct (mark_conflict_or_create empty_db 1) as (_ & _ & H).
    destruct H as [d Hd].
    + intros [d Hd]. discriminate Hd.
    + exists d. split; apply Hd.
Defined.

(** ** Unmarking *)

(** Two rows of a table with a unique column that agree on it are the
    same row. *)
Lemma NoDup_map_inj {A : Type} (f : A -> Z) (l : list A) (x y : A) :
  NoDup (map f l) -> In x l -> In y l -> f x = f y -> x = y.
Proof.
  induction l as [|a l IH]; simpl; [tauto|]. intros H. inversion H; subst.
  intros [->|Hx] [->|Hy] Hf; auto.
  - exfalso. apply H2. rewrite Hf. now apply in_map.
  - exfalso. apply H2. rewrite <- Hf. now apply in_map.
Qed.

Lemma delete_done_rows (db : Store) (d r : Done) :
  NoDup (map rowid (dones db)) -> In d (dones db) ->
  In r (dones (snd (done_crud.delete_done db d))) <-> In r (dones db) /\ r <> d.
Proof.
  intros Hr Hin. simpl. rewrite filter_In, negb_true_iff, Z.eqb_neq. split.
  - intros [Hr1 Hr2]. split; [assumption|]. intros ->. now apply Hr2.
  - intros [Hr1 Hr2]. split; [assumption|]. intros Hid. apply Hr2.
    now apply (NoDup_map_inj rowid (dones db)).
Qed.

Lemma get_done_after_delete (db : Store) (tid : Z) (d : Done) :
  Inv db -> done_crud.get_done db tid = PyDone d ->
  done_crud.get_done (snd (done_crud.delete_done db d)) tid = PyNone.
Proof.
  intros (Ht & Hr & _) E.
  destruct (get_done_cases db tid) as [[E' _]|[d' [E' (_ & Hin & Htid)]]];
    [congruence|].
  assert (d' = d) by congruence. subst d'.
  apply get_done_None_iff. intros r Hin' Hr2.
  apply delete_done_rows in Hin'; auto. destruct Hin' as [Hr1 Hne].
  apply Hne. apply (NoDup_map_inj task_id (dones db)); auto. congruence.
Qed.

(** C3: [unmark_task_as_done] fails with 404 "Done not found" exactly when
    the lookup returns absent; otherwise it awaits the deletion of the very
    record the lookup returned, which removes that row and no other, takes
    the task id from MARKED to ABSENT, and returns nothing with status 200. *)
Theorem unmark_not_found_or_delete (db : Store) (tid : Z) :
  reachable db ->
  let res := run exec_db (done_router.unmark_task_as_done tid) db in
  (outcome res = Failed (mkHTTPException 404 "Done not found")
     <-> done_crud.get_done db tid = PyNone)
  /\ (done_crud.get_done db tid = PyNone ->
        http_status (outcome res) = 404 /\ final res = db)
  /\ (forall d, done_crud.get_done db tid = PyDone d ->
        outcome res = Ok tt
        /\ http_status (outcome res) = 200
        /\ calls res = [Called (GetDone tid); Called (DeleteDone d)]
        /\ dones (final res)
           = filter (fun r => negb (rowid r =? rowid d)) (dones db)
        /\ (forall r, In r (dones (final res)) <-> In r (dones db) /\ r <> d)
        /\ tasks (final res) = tasks db
        /\ done_state db tid = MARKED
        /\ done_state (final res) tid = ABSENT).
Proof.
  intros Hreach res. subst res.
  apply reachable_Inv in Hreach. destruct Hreach as (Ht & Hr & Hi).
  destruct (get_done_cases db tid) as [[E Hf]|[d [E (Hfind & Hin & Htid)]]].
  - rewrite (run_unmark_absent _ _ E). unfold outcome, final. simpl.
    split; [|split]; [tauto | auto | intros d Hd; congruence].
  - rewrite (run_unmark_marked _ _ _ E). unfold outcome, final, calls.
    simpl fst. simpl snd. split; [|split].
    + split; [discriminate | congruence].
    + congruence.
    + intros d0 Hd0. assert (d0 = d) by congruence. subst d0.
      repeat (split; [reflexivity|]).
      split; [intros r; now apply delete_done_rows|].
      split; [reflexivity|]. split.
      * unfold done_state. rewrite has_done_get_done, E. reflexivity.
      * pose proof (get_done_after_delete db tid d (conj Ht (conj Hr Hi)) E) as Hx.
        unfold done_state. rewrite has_done_get_done.
        simpl in Hx |- *. rewrite Hx. reflexivity.
Qed.

Lemma unmark_not_found_or_delete_witness :
  reachable db_marked
  /\ outcome (run exec_db (done_router.unmark_task_as_done 1) db_marked) = Ok tt
  /\ done_state (final (run exec_db (done_router.unmark_task_as_done 1) db_marked)) 1 = ABSENT.
Proof.
  split; [exact reachable_db_marked|].
  destruct (unmark_not_found_or_delete db_marked 1 reachable_db_marked) as (_ & _ & H).
  specialize (H (mkDone 1 1) eq_refl). split; apply H.
Defined.

(** The deletion goes by the identity of the fetched record, not by the
    task id: in a store holding two rows for task 5, unmarking removes the
    row the lookup returned and leaves the other one. *)
Example unmark_deletes_fetched_record :
  let db := mkStore [] [mkDone 1 5; mkDone 2 5] in
  done_crud.get_done db 5 = PyDone (mkDone 1 5)
  /\ dones (final (run exec_db (done_router.unmark_task_as_done 5) db)) = [mkDone 2 5].
Proof. split; reflexivity. Qed.

(** ** Sequences of mark and unmark requests *)

Lemma serve_PUT_done_absent (db : Store) (tid : Z) :
  done_crud.get_done db tid = PyNone ->
  serve (PUT_done tid) db = (200, snd (done_crud.create_done db tid)).
Proof. intros E. unfold serve. rewrite (run_mark_absent _ _ E). reflexivity. Qed.

Lemma serve_PUT_done_marked (db : Store) (tid : Z) (d : Done) :
  done_crud.get_done db tid = PyDone d ->
  serve (PUT_done tid) db = (400, db).
Proof. intros E. unfold serve. rewrite (run_mark_marked _ _ _ E eq_refl). reflexivity. Qed.

Lemma serve_DELETE_done_absent (db : Store) (tid : Z) :
  done_crud.get_done db tid = PyNone ->
  serve (DELETE_done tid) db = (404, db).
Proof. intros E. unfold serve. rewrite (run_unmark_absent _ _ E). reflexivity. Qed.

Lemma serve_DELETE_done_marked (db : Store) (tid : Z) (d : Done) :
  done_crud.get_done db tid = PyDone d ->
  serve (DELETE_done tid) db = (200, snd (done_crud.delete_done db d)).
Proof. intros E. unfold serve. rewrite (run_unmark_marked _ _ _ E). reflexivity. Qed.

Lemma find_snoc_none {A : Type} (f : A -> bool) (l : list A) (a : A) :
  find f l = None -> f a = true -> find f (l ++ [a]) = Some a.
Proof.
  induction l as [|b l IH]; simpl; intros H Ha; [now rewrite Ha|].
  destruct (f b); [discriminate | auto].
Qed.

Lemma get_done_after_create (db : Store) (tid : Z) :
  done_crud.get_done db tid = PyNone ->
  done_crud.get_done (snd (done_crud.create_done db tid)) tid
  = PyDone (fst (done_crud.create_done db tid)).
Proof.
  intros E. destruct (get_done_cases db tid) as [[_ Hf]|[d [E' _]]]; [|congruence].
  unfold done_crud.get_done. simpl.
  rewrite (find_snoc_none _ _ _ Hf); [reflexivity|]. simpl. apply Z.eqb_refl.
Qed.

Lemma filter_all {A : Type} (f : A -> bool) (l : list A) :
  (forall x, In x l -> f x = true) -> filter f l = l.
Proof.
  induction l as [|a l IH]; simpl; intros H; [reflexivity|].
  rewrite (H a (or_introl eq_refl)). f_equal. apply IH. auto.
Qed.

(** Deleting the row just created gives back the store as it was. *)
Lemma delete_created_done (db : Store) (tid : Z) :
  snd (done_crud.delete_done (snd (done_crud.create_done db tid))
                             (fst (done_crud.create_done db tid))) = db.
Proof.
  destruct db as [ts ds]. simpl. f_equal.
  rewrite filter_app. simpl. rewrite Z.eqb_refl. simpl. rewrite app_nil_r.
  apply filter_all. intros x Hx. apply negb_true_iff, Z.eqb_neq.
  apply (in_map rowid) in Hx. apply fresh_id_above in Hx. lia.
Qed.

Lemma reachable_db_orphan : reachable db_orphan.
Proof. unfold db_orphan. apply reachable_serve, reachable_empty. Qed.

(** C4, as stated, fails: a task created in a reachable store that already
    holds a marker for the id it is given answers 400 to its first mark. *)
Lemma fresh_task_sequence_counterexample :
  ~ (forall (db : Store) (new_title : string),
        reachable db ->
        forall t, outcome (run exec_db (task_router.create_task new_title) db) = Ok t ->
        fst (serve_all [PUT_done (id t); PUT_done (id t);
                        DELETE_done (id t); DELETE_done (id t)]
                       (final (run exec_db (task_router.create_task new_title) db)))
        = [200; 400; 200; 404]).
Proof.
  intros H.
  specialize (H db_orphan "A" reachable_db_orphan (mkTask 1 "A") eq_refl).
  vm_compute in H. discriminate H.
Qed.

(** C4, amended: for every task id without a marker, and so for every
    freshly created task whose id has no marker yet, mark, mark, unmark,
    unmark answer 200, 400, 200, 404; two consecutive marks never both
    succeed, and in a reachable store two consecutive unmarks never both
    succeed. *)
Theorem mark_mark_unmark_unmark (db : Store) (tid : Z) :
  (done_crud.get_done db tid = PyNone ->
     fst (serve_all [PUT_done tid; PUT_done tid; DELETE_done tid; DELETE_done tid] db)
     = [200; 400; 200; 404])
  /\ (forall new_title t,
        outcome (run exec_db (task_router.create_task new_title) db) = Ok t ->
        done_crud.get_done db (id t) = PyNone ->
        fst (serve_all [PUT_done (id t); PUT_done (id t);
                        DELETE_done (id t); DELETE_done (id t)]
                       (final (run exec_db (task_router.create_task new_title) db)))
        = [200; 400; 200; 404])
  /\ fst (serve_all [PUT_done tid; PUT_done tid] db) <> [200; 200]
  /\ (reachable db ->
        fst (serve_all [DELETE_done tid; DELETE_done tid] db) <> [200; 200]).
Proof.
  assert (Hseq : forall db tid, done_crud.get_done db tid = PyNone ->
            fst (serve_all [PUT_done tid; PUT_done tid; DELETE_done tid; DELETE_done tid] db)
            = [200; 400; 200; 404]).
  { clear. intros db tid E. cbn [serve_all].
    rewrite (serve_PUT_done_absent _ _ E).
    rewrite (serve_PUT_done_marked _ _ _ (get_done_after_create _ _ E)).
    rewrite (serve_DELETE_done_marked _ _ _ (get_done_after_create _ _ E)).
    rewrite delete_created_done.
    rewrite (serve_DELETE_done_absent _ _ E). reflexivity. }
  split; [apply Hseq|]. split; [|split].
  - intros new_title t Ht E. apply Hseq.
    simpl in Ht. injection Ht as <-. exact E.
  - cbn [serve_all].
    destruct (get_done_cases db tid) as [[E _]|[d [E _]]].
    + rewrite (serve_PUT_done_absent _ _ E).
      rewrite (serve_PUT_done_marked _ _ _ (get_done_after_create _ _ E)).
      simpl. discriminate.
    + rewrite (serve_PUT_done_marked _ _ _ E).
      rewrite (serve_PUT_done_marked _ _ _ E). simpl. discriminate.
  - intros Hreach. apply reachable_Inv in Hreach. cbn [serve_all].
    destruct (get_done_cases db tid) as [[E _]|[d [E _]]].
    + rewrite (serve_DELETE_done_absent _ _ E).
      rewrite (serve_DELETE_done_absent _ _ E). simpl. discriminate.
    + rewrite (serve_DELETE_done_marked _ _ _ E).
      rewrite (serve_DELETE_done_absent _ _ (get_done_after_delete _ _ _ Hreach E)).
      simpl. discriminate.
Qed.

Lemma mark_mark_unmark_unmark_witness :
  fst (serve_all [PUT_done 1; PUT_done 1; DELETE_done 1; DELETE_done 1]
                 (final (run exec_db (task_router.create_task "A") empty_db)))
  = [200; 400; 200; 404]
  /\ fst (serve_all [DELETE_done 1; DELETE_done 1] db_marked) <> [200; 200].
Proof.
  split.
  - apply (proj1 (proj2 (mark_mark_unmark_unmark empty_db 1)) "A" (mkTask 1 "A"));
      reflexivity.
  - apply (proj2 (proj2 (proj2 (mark_mark_unmark_unmark db_marked 1)))).
    exact reachable_db_marked.
Defined.

(** ** Marking does not look at the tasks *)

(** C5: for a task id without a marker and without a task, marking
    succeeds with status 200: the handler awaits the marker lookup and the
    creation only, never a task lookup, and leaves a marker whose task does
    not exist. *)
Theorem mark_without_task (db : Store) (tid : Z) :
  done_crud.get_done db tid = PyNone ->
  task_crud.get_task db tid = None ->
  let res := run exec_db (done_router.mark_task_as_done tid) db in
  exists d,
    outcome res = Ok d
    /\ http_status (outcome res) = 200
    /\ calls res = [Called (GetDone tid); Called (CreateDone tid)]
    /\ task_id d = tid
    /\ In d (dones (final res))
    /\ done_state (final res) tid = MARKED
    /\ task_crud.get_task (final res) tid = None.
Proof.
  intros E Ht res. subst res. rewrite (run_mark_absent _ _ E).
  exists (fst (done_crud.create_done db tid)).
  unfold outcome, final, calls. cbn [fst snd].
  repeat (split; [reflexivity|]). split; [|split].
  - simpl. apply in_or_app. right. now left.
  - unfold done_state.
    rewrite has_done_get_done, (get_done_after_create _ _ E). reflexivity.
  - exact Ht.
Qed.

Lemma mark_without_task_witness :
  exists d,
    outcome (run exec_db (done_router.mark_task_as_done 7) empty_db) = Ok d
    /\ http_status (outcome (run exec_db (done_router.mark_task_as_done 7) empty_db)) = 200
    /\ calls (run exec_db (done_router.mark_task_as_done 7) empty_db)
       = [Called (GetDone 7); Called (CreateDone 7)]
    /\ task_id d = 7
    /\ In d (dones (final (run exec_db (done_router.mark_task_as_done 7) empty_db)))
    /\ done_state (final (run exec_db (done_router.mark_task_as_done 7) empty_db)) 7 = MARKED
    /\ task_crud.get_task (final (run exec_db (done_router.mark_task_as_done 7) empty_db)) 7 = None.
Proof. exact (mark_without_task empty_db 7 eq_refl eq_refl). Defined.

(** The tasks table has no influence on marking at all. *)
Lemma mark_ignores_tasks (ts ts' : list Task) (ds : list Done) (tid : Z) :
  outcome (run exec_db (done_router.mark_task_as_done tid) (mkStore ts ds))
  = outcome (run exec_db (done_router.mark_task_as_done tid) (mkStore ts' ds))
  /\ dones (final (run exec_db (done_router.mark_task_as_done tid) (mkStore ts ds)))
     = dones (final (run exec_db (done_router.mark_task_as_done tid) (mkStore ts' ds))).
Proof.
  simpl. unfold done_crud.get_done. simpl.
  destruct (find _ ds); simpl; split; reflexivity.
Qed.

(** ** The defensive branch of unmarking *)

Example unmark_int_branch :
  run (exec_int 42) (done_router.unmark_task_as_done 1) db_marked
  = (Failed (mkHTTPException 404 "unchi~^42"), db_marked, [Called (GetDone 1)]).
Proof. reflexivity. Qed.

(** C6: the lookup never returns a bare integer, so unmarking never raises
    the diagnostic 404 of the [int] branch: what it does is decided by
    whether the lookup returns absent or a marker. *)
Theorem unmark_int_branch_unreachable (db : Store) (tid : Z) :
  (forall n, done_crud.get_done db tid <> PyInt n)
  /\ (forall n, outcome (run exec_db (done_router.unmark_task_as_done tid) db)
                <> Failed (mkHTTPException 404 ("unchi~^" ++ str n)%string))
  /\ run exec_db (done_router.unmark_task_as_done tid) db
     = match done_crud.get_done db tid with
       | PyDone d => (Ok tt, snd (done_crud.delete_done db d),
                      [Called (GetDone tid); Called (DeleteDone d)])
       | _ => (Failed (mkHTTPException 404 "Done not found"), db,
               [Called (GetDone tid)])
       end.
Proof.
  split; [intros n; apply get_done_not_int|].
  destruct (get_done_cases db tid) as [[E _]|[d [E _]]].
  - rewrite (run_unmark_absent _ _ E), E. unfold outcome. simpl.
    split; [|reflexivity]. intros n H. discriminate H.
  - rewrite (run_unmark_marked _ _ _ E), E. unfold outcome. simpl.
    split; [|reflexivity]. intros n H. discriminate H.
Qed.

(** ** Check, then act *)

(** C7: against every persistence layer, a mark or an unmark first awaits
    the lookup alone; after that step the store is as the lookup left it and
    the rest of the handler is decided by the value read: it either raises
    without any further call, or awaits one write, a second persistence
    call, and returns. *)
Theorem check_then_act (S : Type) (exec : forall X : Type, CrudOp X -> S -> X * S)
    (db : S) (tid : Z) :
  let v := fst (exec _ (GetDone tid) db) in
  let db1 := snd (exec _ (GetDone tid) db) in
  (exists k, done_router.mark_task_as_done tid = Await (GetDone tid) k
             /\ step exec (done_router.mark_task_as_done tid) db = (k v, db1)
             /\ (is_not_None v = true ->
                   k v = Raise (mkHTTPException 400 "Done already exists")
                   /\ calls (run exec (done_router.mark_task_as_done tid) db)
                      = [Called (GetDone tid)])
             /\ (is_not_None v = false ->
                   k v = Await (CreateDone tid) Return
                   /\ calls (run exec (done_router.mark_task_as_done tid) db)
                      = [Called (GetDone tid); Called (CreateDone tid)]
                   /\ final (run exec (done_router.mark_task_as_done tid) db)
                      = snd (exec _ (CreateDone tid) db1)))
  /\ (exists k, done_router.unmark_task_as_done tid = Await (GetDone tid) k
             /\ step exec (done_router.unmark_task_as_done tid) db = (k v, db1)
             /\ (forall d, v = PyDone d ->
                   k v = Await (DeleteDone d) Return
                   /\ calls (run exec (done_router.unmark_task_as_done tid) db)
                      = [Called (GetDone tid); Called (DeleteDone d)]
                   /\ final (run exec (done_router.unmark_task_as_done tid) db)
                      = snd (exec _ (DeleteDone d) db1))
             /\ ((forall d, v <> PyDone d) ->
                   (exists e, k v = Raise e)
                   /\ calls (run exec (done_router.unmark_task_as_done tid) db)
                      = [Called (GetDone tid)])).
Proof.
  intros v db1. subst v db1. split.
  - eexists. split; [reflexivity|]. simpl.
    destruct (exec pyval (GetDone tid) db) as [v db1]. simpl.
    split; [reflexivity|]. split; intros Hv; rewrite Hv.
    + split; reflexivity.
    + simpl. destruct (exec Done (CreateDone tid) db1) as [d db2].
      repeat split.
  - eexists. split; [reflexivity|]. simpl.
    destruct (exec pyval (GetDone tid) db) as [v db1]. simpl.
    split; [reflexivity|]. split.
    + intros d ->. simpl. destruct (exec unit (DeleteDone d) db1) as [u db2].
      repeat split.
    + intros Hv. destruct v as [|n|d]; [| |now destruct (Hv d)];
        (split; [eexists; reflexivity | reflexivity]).
Qed.

Lemma check_then_act_witness :
  calls (run exec_db (done_router.mark_task_as_done 1) db_marked) = [Called (GetDone 1)]
  /\ calls (run exec_db (done_router.mark_task_as_done 1) empty_db)
     = [Called (GetDone 1); Called (CreateDone 1)]
  /\ calls (run exec_db (done_router.unmark_task_as_done 1) db_marked)
     = [Called (GetDone 1); Called (DeleteDone (mkDone 1 1))]
  /\ calls (run exec_db (done_router.unmark_task_as_done 1) empty_db)
     = [Called (GetDone 1)].
Proof.
  split; [|split; [|split]].
  - destruct (proj1 (check_then_act Store exec_db db_marked 1)) as (k & _ & _ & H & _).
    apply H. reflexivity.
  - destruct (proj1 (check_then_act Store exec_db empty_db 1)) as (k & _ & _ & _ & H).
    apply H. reflexivity.
  - destruct (proj2 (check_then_act Store exec_db db_marked 1)) as (k & _ & _ & H & _).
    apply (H (mkDone 1 1)). reflexivity.
  - destruct (proj2 (check_then_act Store exec_db empty_db 1)) as (k & _ & _ & _ & H).
    apply H. intros d. discriminate.
Defined.

(** ** Failed requests leave the store alone *)

(** C10: against every persistence layer whose lookup only reads, a mark
    that raises (400) and an unmark that raises (404, on absent and on a
    bare integer alike) have awaited the lookup and nothing else, so no
    creation or deletion was called and the store is as it was. *)
Theorem failure_leaves_store (S : Type) (exec : forall X : Type, CrudOp X -> S -> X * S)
    (db : S) (tid : Z) :
  (forall t s, snd (exec _ (GetDone t) s) = s) ->
  (forall e, outcome (run exec (done_router.mark_task_as_done tid) db) = Failed e ->
     e = mkHTTPException 400 "Done already exists"
     /\ calls (run exec (done_router.mark_task_as_done tid) db) = [Called (GetDone tid)]
     /\ final (run exec (done_router.mark_task_as_done tid) db) = db)
  /\ (forall e, outcome (run exec (done_router.unmark_task_as_done tid) db) = Failed e ->
     (e = mkHTTPException 404 "Done not found"
      \/ exists n, fst (exec _ (GetDone tid) db) = PyInt n
                   /\ e = mkHTTPException 404 ("unchi~^" ++ str n)%string)
     /\ calls (run exec (done_router.unmark_task_as_done tid) db) = [Called (GetDone tid)]
     /\ forallb is_write (calls (run exec (done_router.unmark_task_as_done tid) db)) = false
     /\ final (run exec (done_router.unmark_task_as_done tid) db) = db).
Proof.
  intros Hread. pose proof (Hread tid db) as Hdb. split; intros e; simpl.
  - destruct (exec pyval (GetDone tid) db) as [v db1]. simpl in Hdb. subst db1.
    destruct (is_not_None v).
    + unfold outcome, final, calls. simpl. intros H. injection H as <-. auto.
    + simpl. destruct (exec Done (CreateDone tid) db) as [d db2].
      unfold outcome. simpl. intros H. discriminate H.
  - destruct (exec pyval (GetDone tid) db) as [v db1]. simpl in Hdb. subst db1.
    destruct v as [|n|d].
    + unfold outcome, final, calls. simpl. intros H. injection H as <-. auto.
    + unfold outcome, final, calls. simpl. intros H. injection H as <-.
      split; [right; exists n; auto | auto].
    + simpl. destruct (exec unit (DeleteDone d) db) as [u db2].
      unfold outcome. simpl. intros H. discriminate H.
Qed.

Lemma failure_leaves_store_witness :
  final (run exec_db (done_router.mark_task_as_done 1) db_marked) = db_marked
  /\ final (run exec_db (done_router.unmark_task_as_done 1) empty_db) = empty_db
  /\ final (run (exec_int 42) (done_router.unmark_task_as_done 1) db_marked) = db_marked.
Proof.
  split; [|split].
  - apply (proj1 (failure_leaves_store Store exec_db db_marked 1 (fun t s => eq_refl))
             (mkHTTPException 400 "Done already exists")).
    reflexivity.
  - apply (proj2 (failure_leaves_store Store exec_db empty_db 1 (fun t s => eq_refl))
             (mkHTTPException 404 "Done not found")).
    reflexivity.
  - apply (proj2 (failure_leaves_store Store (exec_int 42) db_marked 1 (fun t s => eq_refl))
             (mkHTTPException 404 "unchi~^42")).
    reflexivity.
Defined.

(** ** The Task component *)

Lemma get_task_id (db : Store) (tid : Z) (t : Task) :
  task_crud.get_task db tid = Some t -> id t = tid.
Proof. intros H. apply find_some in H. now apply Z.eqb_eq. Qed.

Lemma find_map_same_id (g : Task -> Task) (l : list Task) (z : Z) :
  (forall r, id (g r) = id r) ->
  find (fun t => id t =? z) (map g l)
  = option_map g (find (fun t => id t =? z) l).
Proof.
  intros Hg. induction l as [|a l IH]; simpl; [reflexivity|].
  rewrite Hg. destruct (id a =? z); [reflexivity | exact IH].
Qed.

Lemma run_update_task_found (db : Store) (tid : Z) (new_title : string) (t : Task) :
  task_crud.get_task db tid = Some t ->
  run exec_db (task_router.update_task tid new_title) db
  = (Ok (mkTask tid new_title),
     mkStore (map (fun r => if id r =? tid then mkTask tid new_title else r) (tasks db))
             (dones db),
     [Called (GetTask tid); Called (UpdateTask new_title t)]).
Proof.
  intros H. pose proof (get_task_id _ _ _ H) as Hid. simpl. rewrite H. simpl.
  rewrite Hid. reflexivity.
Qed.

(** C8: updating a task id that does not exist fails with NotFound (404)
    and changes nothing; updating an existing one returns the record with
    the same id and the new title, after which the lookup by id and the task
    list show the new title for that id, the same ids, the same done flags
    and every other task as before. *)
Theorem update_overwrites_title_only (db : Store) (tid : Z) (new_title : string) :
  let res := run exec_db (task_router.update_task tid new_title) db in
  (task_crud.get_task db tid = None ->
     (exists e, outcome res = Failed e)
     /\ http_status (outcome res) = 404
     /\ final res = db)
  /\ (forall t, task_crud.get_task db tid = Some t ->
        outcome res = Ok (mkTask tid new_title)
        /\ http_status (outcome res) = 200
        /\ task_crud.get_task (final res) tid = Some (mkTask tid new_title)
        /\ (forall other, other <> tid ->
              task_crud.get_task (final res) other = task_crud.get_task db other)
        /\ task_crud.get_tasks_with_done (final res)
           = map (fun v => if view_id v =? tid
                           then mkTaskView (view_id v) new_title (view_done v)
                           else v)
                 (task_crud.get_tasks_with_done db)
        /\ dones (final res) = dones db).
Proof.
  intros res. subst res. split.
  - intros H. simpl. rewrite H. unfold outcome, final. simpl. eauto.
  - intros t H. rewrite (run_update_task_found _ _ _ _ H).
    pose proof (get_task_id _ _ _ H) as Hid.
    unfold outcome, final. cbn [fst snd]. repeat (split; [reflexivity|]).
    assert (Hg : forall r, id (if id r =? tid then mkTask tid new_title else r) = id r).
    { intros r. destruct (id r =? tid) eqn:E; [|reflexivity].
      apply Z.eqb_eq in E. simpl. auto. }
    split; [|split; [|split]].
    + unfold task_crud.get_task in *. cbn [tasks].
      rewrite (find_map_same_id _ _ _ Hg), H. simpl.
      rewrite Hid, Z.eqb_refl. reflexivity.
    + intros other Hne. unfold task_crud.get_task. cbn [tasks].
      rewrite (find_map_same_id _ _ _ Hg).
      destruct (find (fun t0 => id t0 =? other) (tasks db)) as [r|] eqn:E;
        [|reflexivity].
      apply find_some in E. destruct E as [_ E]. apply Z.eqb_eq in E. simpl.
      destruct (id r =? tid) eqn:E'; [|reflexivity].
      apply Z.eqb_eq in E'. congruence.
    + unfold task_crud.get_tasks_with_done. cbn [tasks]. rewrite !map_map.
      apply map_ext. intros r. unfold task_crud.view, task_crud.has_done.
      cbn [dones view_id view_done view_title].
      destruct (id r =? tid) eqn:E; [|reflexivity].
      apply Z.eqb_eq in E. simpl. rewrite E. reflexivity.
    + reflexivity.
Qed.

Lemma update_overwrites_title_only_witness :
  http_status (outcome (run exec_db (task_router.update_task 1 "B2") empty_db)) = 404
  /\ task_crud.get_tasks_with_done
       (final (run exec_db (task_router.update_task 1 "B2") db_marked))
     = [mkTaskView 1 "B2" true].
Proof.
  split.
  - apply (proj1 (update_overwrites_title_only empty_db 1 "B2")). reflexivity.
  - destruct (proj2 (update_overwrites_title_only db_marked 1 "B2") (mkTask 1 "A") eq_refl)
      as (_ & _ & _ & _ & H & _).
    rewrite H. reflexivity.
Defined.

(** C9, as stated, fails: a task created in a reachable store that already
    holds a marker for the id it is given reads back with [done] true. *)
Lemma create_then_read_counterexample :
  ~ (forall (db : Store) (new_title : string),
        reachable db ->
        forall t l,
          outcome (run exec_db (task_router.create_task new_title) db) = Ok t ->
          outcome (run exec_db task_router.list_tasks
                     (final (run exec_db (task_router.create_task new_title) db))) = Ok l ->
          forall v, In v l -> view_id v = id t ->
                    view_title v = new_title /\ view_done v = false).
Proof.
  intros H.
  specialize (H db_orphan "A" reachable_db_orphan (mkTask 1 "A")
                [mkTaskView 1 "A" true] eq_refl eq_refl
                (mkTaskView 1 "A" true) (or_introl eq_refl) eq_refl).
  destruct H as [_ H]. discriminate H.
Qed.

(** C9, amended: creating a task returns a record with the title sent and
    an id assigned by the store, different from every id in use; reading it
    back by id gives that record, and the task list gains one entry with
    that id and title whose [done] flag is false provided no Done marker
    exists for the assigned id. *)
Theorem create_then_read (db : Store) (new_title : string) :
  let created := run exec_db (task_router.create_task new_title) db in
  exists t,
    outcome created = Ok t
    /\ http_status (outcome created) = 200
    /\ title t = new_title
    /\ id t = fresh_id (map id (tasks db))
    /\ ~ In (id t) (map id (tasks db))
    /\ task_crud.get_task (final created) (id t) = Some t
    /\ outcome (run exec_db task_router.list_tasks (final created))
       = Ok (task_crud.get_tasks_with_done db
             ++ [mkTaskView (id t) new_title (task_crud.has_done db (id t))])
    /\ (done_crud.get_done db (id t) = PyNone ->
          outcome (run exec_db task_router.list_tasks (final created))
          = Ok (task_crud.get_tasks_with_done db
                ++ [mkTaskView (id t) new_title false])).
Proof.
  intros created. subst created.
  exists (mkTask (fresh_id (map id (tasks db))) new_title).
  unfold outcome, final. cbn [run exec_db fst snd task_router.create_task].
  unfold task_crud.create_task. cbn [fst snd id title].
  repeat (split; [reflexivity|]).
  assert (Hlist : task_crud.get_tasks_with_done
                    (mkStore (tasks db ++ [mkTask (fresh_id (map id (tasks db))) new_title])
                             (dones db))
                  = task_crud.get_tasks_with_done db
                    ++ [mkTaskView (fresh_id (map id (tasks db))) new_title
                          (task_crud.has_done db (fresh_id (map id (tasks db))))]).
  { unfold task_crud.get_tasks_with_done. cbn [tasks]. rewrite map_app.
    reflexivity. }
  split; [apply fresh_id_not_used|]. split; [|split].
  - unfold task_crud.get_task. cbn [tasks]. apply find_snoc_none.
    + apply find_none_iff. intros x Hx. apply Z.eqb_neq.
      apply (in_map id) in Hx. apply fresh_id_above in Hx. lia.
    + apply Z.eqb_refl.
  - simpl. f_equal. exact Hlist.
  - intros E. simpl. f_equal. rewrite Hlist.
    rewrite has_done_get_done, E. reflexivity.
Qed.

Lemma create_then_read_witness :
  outcome (run exec_db task_router.list_tasks
             (final (run exec_db (task_router.create_task "A") empty_db)))
  = Ok [mkTaskView 1 "A" false].
Proof.
  destruct (create_then_read empty_db "A") as (t & Ht & _ & _ & _ & _ & _ & _ & H).
  injection Ht as <-. apply H. reflexivity.
Defined.

(** The three scenarios of [tests/test_main.py], run on the empty store. *)
Example test_create_and_read :
  let res := run exec_db (task_router.create_task "t1") empty_db in
  outcome res = Ok (mkTask 1 "t1")
  /\ outcome (run exec_db task_router.list_tasks (final res))
     = Ok [mkTaskView 1 "t1" false].
Proof. split; reflexivity. Qed.

Example test_update_task :
  let db1 := final (run exec_db (task_router.create_task "t3") empty_db) in
  let res := run exec_db (task_router.update_task 1 "t3 kai") db1 in
  outcome res = Ok (mkTask 1 "t3 kai")
  /\ http_status (outcome res) = 200
  /\ outcome (run exec_db task_router.list_tasks (final res))
     = Ok [mkTaskView 1 "t3 kai" false].
Proof. repeat split; reflexivity. Qed.

Example test_done_flg :
  fst (serve_all [POST_tasks "t2"; PUT_done 1; PUT_done 1; DELETE_done 1; DELETE_done 1] empty_db)
  = [200; 200; 400; 200; 404].
Proof. reflexivity. Qed.

Example str_examples : str 0 = "0" /\ str 42 = "42" /\ str (-7) = "-7".
Proof. repeat split; reflexivity. Qed.

(** ** The status codes of the done router *)


(** ** A lookup that answers a bare integer *)






(** ** Other tasks are left alone *)

Lemma filter_filter_imp {A : Type} (f g : A -> bool) (l : list A) :
  (forall x, In x l -> f x = true -> g x = true) ->
  filter f (filter g l) = filter f l.
Proof.
  induction l as [|a l IH]; simpl; intros H; [reflexivity|].
  assert (IH' : filter f (filter g l) = filter f l)
    by (apply IH; intros x Hx; apply H; now right).
  destruct (g a) eqn:Eg; simpl.
  - now rewrite IH'.
  - destruct (f a) eqn:Ef; [|exact IH'].
    rewrite (H a (or_introl eq_refl) Ef) in Eg. discriminate Eg.
Qed.

Lemma find_hd_filter {A : Type} (f : A -> bool) (l : list A) :
  find f l = hd_error (filter f l).
Proof. induction l as [|a l IH]; simpl; [reflexivity|]. now destruct (f a). Qed.

Lemma get_done_done_rows (db : Store) (tid : Z) :
  done_crud.get_done db tid
  = match done_rows db tid with d :: _ => PyDone d | [] => PyNone end.
Proof.
  unfold done_crud.get_done, done_rows. rewrite find_hd_filter.
  now destruct (filter _ _).
Qed.

Lemma has_done_done_rows (db : Store) (tid : Z) :
  task_crud.has_done db tid
  = match done_rows db tid with _ :: _ => true | [] => false end.
Proof.
  rewrite has_done_get_done, get_done_done_rows. now destruct (done_rows db tid).
Qed.

Lemma done_rows_create_other (db : Store) (tid other : Z) :
  other <> tid ->
  done_rows (snd (done_crud.create_done db tid)) other = done_rows db other.
Proof.
  intros Hne. unfold done_rows. simpl. rewrite filter_app. simpl.
  apply Z.eqb_neq in Hne. rewrite Z.eqb_sym, Hne. apply app_nil_r.
Qed.

Lemma done_rows_delete_other (db : Store) (d : Done) (other : Z) :
  NoDup (map rowid (dones db)) -> In d (dones db) -> other <> task_id d ->
  done_rows (snd (done_crud.delete_done db d)) other = done_rows db other.
Proof.
  intros Hr Hin Hne. unfold done_rows. simpl. apply filter_filter_imp.
  intros x Hx Ht. apply Z.eqb_eq in Ht. apply negb_true_iff, Z.eqb_neq.
  intros Hid. apply (NoDup_map_inj rowid (dones db)) in Hid; auto. congruence.
Qed.

(** X4: in a reachable store, a mark or an unmark of one task id, whatever
    it answers, leaves the [tasks] table, the Done rows of every other task
    id, and so the entry of every other task in the task list, as they
    were. *)
Theorem done_router_frame (db : Store) (tid other : Z) (r : Request) :
  reachable db ->
  other <> tid ->
  r = PUT_done tid \/ r = DELETE_done tid ->
  tasks (snd (serve r db)) = tasks db
  /\ done_rows (snd (serve r db)) other = done_rows db other
  /\ done_crud.get_done (snd (serve r db)) other = done_crud.get_done db other
  /\ (forall v, view_id v <> tid ->
        In v (task_crud.get_tasks_with_done (snd (serve r db)))
        <-> In v (task_crud.get_tasks_with_done db)).
Proof.
  intros Hreach Hne Hr. apply reachable_Inv in Hreach.
  destruct Hreach as (_ & Hrow & _).
  assert (Hrows : tasks (snd (serve r db)) = tasks db
                  /\ forall o, o <> tid ->
                       done_rows (snd (serve r db)) o = done_rows db o).
  { destruct Hr as [-> | ->];
      destruct (get_done_cases db tid) as [[E _]|[d [E (_ & Hin & Ht)]]].
    - rewrite (serve_PUT_done_absent _ _ E). split; [reflexivity|].
      intros o Ho. now apply done_rows_create_other.
    - rewrite (serve_PUT_done_marked _ _ _ E). auto.
    - rewrite (serve_DELETE_done_absent _ _ E). auto.
    - rewrite (serve_DELETE_done_marked _ _ _ E). split; [reflexivity|].
      intros o Ho. apply done_rows_delete_other; auto. congruence. }
  destruct Hrows as [Htasks Hrows].
  split; [exact Htasks|]. split; [now apply Hrows|].
  split; [now rewrite !get_done_done_rows, Hrows|].
  intros v Hv. unfold task_crud.get_tasks_with_done. rewrite Htasks.
  rewrite !in_map_iff.
  split; intros [t [Hview Hint]]; exists t; (split; [|exact Hint]);
    rewrite <- Hview in *; simpl in Hv; unfold task_crud.view;
    rewrite !has_done_done_rows, Hrows by exact Hv; reflexivity.
Qed.

Lemma done_router_frame_witness :
  done_crud.get_done (snd (serve (DELETE_done 1) db_marked)) 2
  = done_crud.get_done db_marked 2
  /\ tasks (snd (serve (PUT_done 2) db_marked)) = tasks db_marked.
Proof.
  split.
  - apply (done_router_frame db_marked 1 2 (DELETE_done 1) reachable_db_marked);
      [lia | now right].
  - apply (done_router_frame db_marked 2 1 (PUT_done 2) reachable_db_marked);
      [lia | now left].
Defined.

(** ** Retrying and toggling *)

Lemma serve_all_PUT_done_marked (db : Store) (tid : Z) (d : Done) (n : nat) :
  done_crud.get_done db tid = PyDone d ->
  serve_all (repeat (PUT_done tid) n) db = (repeat 400 n, db).
Proof.
  intros E. induction n as [|n IH]; [reflexivity|].
  cbn [repeat serve_all]. rewrite (serve_PUT_done_marked _ _ _ E), IH.
  reflexivity.
Qed.

Lemma serve_all_DELETE_done_absent (db : Store) (tid : Z) (n : nat) :
  done_crud.get_done db tid = PyNone ->
  serve_all (repeat (DELETE_done tid) n) db = (repeat 404 n, db).
Proof.
  intros E. induction n as [|n IH]; [reflexivity|].
  cbn [repeat serve_all]. rewrite (serve_DELETE_done_absent _ _ E), IH.
  reflexivity.
Qed.

(** X5: retries change nothing.  After a first [PUT /tasks/{id}/done],
    whatever it answered, every further one answers 400 and the store stays
    as the first one left it; in a reachable store the same holds for
    [DELETE /tasks/{id}/done] with 404. *)
Theorem retries_change_nothing (db : Store) (tid : Z) (n : nat) :
  serve_all (repeat (PUT_done tid) (S n)) db
  = (fst (serve (PUT_done tid) db) :: repeat 400 n, snd (serve (PUT_done tid) db))
  /\ (reachable db ->
        serve_all (repeat (DELETE_done tid) (S n)) db
        = (fst (serve (DELETE_done tid) db) :: repeat 404 n,
           snd (serve (DELETE_done tid) db))).
Proof.
  split; [|intros Hreach; apply reachable_Inv in Hreach];
    cbn [repeat serve_all];
    destruct (get_done_cases db tid) as [[E _]|[d [E _]]].
  - rewrite (serve_PUT_done_absent _ _ E).
    rewrite (serve_all_PUT_done_marked _ _ _ _ (get_done_after_create _ _ E)).
    reflexivity.
  - rewrite (serve_PUT_done_marked _ _ _ E).
    rewrite (serve_all_PUT_done_marked _ _ _ _ E). reflexivity.
  - rewrite (serve_DELETE_done_absent _ _ E).
    rewrite (serve_all_DELETE_done_absent _ _ _ E). reflexivity.
  - rewrite (serve_DELETE_done_marked _ _ _ E).
    rewrite (serve_all_DELETE_done_absent _ _ _ (get_done_after_delete _ _ _ Hreach E)).
    reflexivity.
Qed.

Lemma retries_change_nothing_witness :
  serve_all (repeat (DELETE_done 1) 3) db_marked
  = (fst (serve (DELETE_done 1) db_marked) :: repeat 404 2,
     snd (serve (DELETE_done 1) db_marked)).
Proof.
  exact (proj2 (retries_change_nothing db_marked 1 2) reachable_db_marked).
Defined.

(** X6: marking and then unmarking a task id that has no marker gives the
    store back exactly, so any number of such rounds answers 200 throughout
    and ends in the store it started from. *)
Theorem toggles_restore_store (db : Store) (tid : Z) (n : nat) :
  done_crud.get_done db tid = PyNone ->
  serve_all (toggles tid n) db = (repeat 200 (2 * n), db).
Proof.
  intros E. induction n as [|n IH]; [reflexivity|].
  replace (2 * S n)%nat with (S (S (2 * n))) by lia.
  cbn [toggles serve_all repeat].
  rewrite (serve_PUT_done_absent _ _ E).
  rewrite (serve_DELETE_done_marked _ _ _ (get_done_after_create _ _ E)).
  rewrite delete_created_done, IH. reflexivity.
Qed.

Lemma toggles_restore_store_witness :
  serve_all (toggles 1 3) (snd (serve (POST_tasks "A") empty_db))
  = (repeat 200 6, snd (serve (POST_tasks "A") empty_db)).
Proof.
  exact (toggles_restore_store (snd (serve (POST_tasks "A") empty_db)) 1 3 eq_refl).
Defined.

(** ** Counting markers from the answers *)

Lemma length_filter_remove {A : Type} (f : A -> Z) (l : list A) (d : A) :
  NoDup (map f l) -> In d l ->
  S (List.length (filter (fun r => negb (f r =? f d)) l)) = List.length l.
Proof.
  induction l as [|a l IH]; simpl; [tauto|]. intros H. inversion H; subst.
  intros [->|Hin].
  - rewrite Z.eqb_refl. simpl. f_equal. f_equal. apply filter_all.
    intros x Hx. apply negb_true_iff, Z.eqb_neq. intros Hf. apply H2.
    rewrite <- Hf. now apply in_map.
  - destruct (f a =? f d) eqn:E.
    + exfalso. apply Z.eqb_eq in E. apply H2. rewrite E. now apply in_map.
    + simpl. f_equal. now apply IH.
Qed.

Lemma serve_marker_delta (r : Request) (db : Store) :
  Inv db ->
  Z.of_nat (List.length (dones (snd (serve r db))))
  = Z.of_nat (List.length (dones db)) + marker_delta r (fst (serve r db)).
Proof.
  intros (_ & Hrow & _). destruct r as [new_title| |tid new_title|tid|tid].
  - simpl. lia.
  - unfold serve, final. simpl. lia.
  - unfold serve, final. simpl.
    destruct (task_crud.get_task db tid); simpl; lia.
  - destruct (get_done_cases db tid) as [[E _]|[d [E _]]].
    + rewrite (serve_PUT_done_absent _ _ E). simpl.
      rewrite length_app. simpl. lia.
    + rewrite (serve_PUT_done_marked _ _ _ E). simpl. lia.
  - destruct (get_done_cases db tid) as [[E _]|[d [E (_ & Hin & _)]]].
    + rewrite (serve_DELETE_done_absent _ _ E). simpl. lia.
    + rewrite (serve_DELETE_done_marked _ _ _ E). cbn [fst snd marker_delta].
      change (200 =? 200) with true. cbv iota.
      pose proof (length_filter_remove rowid (dones db) d Hrow Hin) as Hlen.
      simpl. lia.
Qed.

(** X7: the answers account for the markers.  Serving any sequence of
    requests in a reachable store changes the number of Done rows by the
    number of marks answered 200 minus the number of unmarks answered 200. *)
Theorem answers_count_markers (db : Store) (rs : list Request) :
  reachable db ->
  Z.of_nat (List.length (dones (snd (serve_all rs db))))
  = Z.of_nat (List.length (dones db)) + marker_deltas rs (fst (serve_all rs db)).
Proof.
  revert db. induction rs as [|r rs IH]; intros db Hreach.
  - simpl. lia.
  - pose proof (serve_marker_delta r db (reachable_Inv _ Hreach)) as Hstep.
    pose proof (IH _ (reachable_serve r db Hreach)) as Hrest.
    cbn [serve_all]. destruct (serve r db) as [st db1]. cbn [fst snd] in *.
    destruct (serve_all rs db1) as [sts db2]. cbn [fst snd marker_deltas] in *.
    lia.
Qed.

Lemma answers_count_markers_witness :
  Z.of_nat (List.length (dones (snd (serve_all [PUT_done 2; DELETE_done 1; DELETE_done 1] db_marked))))
  = Z.of_nat (List.length (dones db_marked))
    + marker_deltas [PUT_done 2; DELETE_done 1; DELETE_done 1]
        (fst (serve_all [PUT_done 2; DELETE_done 1; DELETE_done 1] db_marked)).
Proof.
  exact (answers_count_markers db_marked [PUT_done 2; DELETE_done 1; DELETE_done 1]
           reachable_db_marked).
Defined.

(** ** Clients that mark existing tasks only *)

Lemma no_orphans_serve (r : Request) (db : Store) :
  no_orphans db ->
  (forall tid, r = PUT_done tid -> task_crud.get_task db tid <> None) ->
  no_orphans (snd (serve r db)).
Proof.
  intros H Hr. destruct r as [new_title| |tid new_title|tid|tid].
  - intros d Hd. simpl in *. rewrite map_app. apply in_or_app. left. now apply H.
  - exact H.
  - simpl. destruct (task_crud.get_task db tid) as [t|] eqn:E; simpl; [|exact H].
    intros d Hd. simpl in Hd.
    change (In (task_id d)
              (map id (tasks (snd (task_crud.update_task db new_title t))))).
    rewrite update_task_ids. now apply H.
  - destruct (get_done_cases db tid) as [[E _]|[d [E _]]].
    + rewrite (serve_PUT_done_absent _ _ E). intros d Hd. simpl in *.
      apply in_app_or in Hd. destruct Hd as [Hd|[<-|[]]]; [now apply H|]. simpl.
      specialize (Hr tid eq_refl).
      destruct (task_crud.get_task db tid) as [t|] eqn:Et; [|congruence].
      rewrite <- (get_task_id _ _ _ Et). apply in_map.
      unfold task_crud.get_task in Et. now apply find_some in Et.
    + rewrite (serve_PUT_done_marked _ _ _ E). exact H.
  - destruct (get_done_cases db tid) as [[E _]|[d [E _]]].
    + rewrite (serve_DELETE_done_absent _ _ E). exact H.
    + rewrite (serve_DELETE_done_marked _ _ _ E). intros r Hr'. simpl in *.
      apply filter_In in Hr'. now apply H.
Qed.

Lemma marking_tasks_no_orphans (db : Store) :
  reachable_marking_tasks db -> no_orphans db.
Proof.
  induction 1 as [|r db _ IH Hr]; [intros d []|]. now apply no_orphans_serve.
Qed.

Lemma serve_sequence_absent (db : Store) (tid : Z) :
  done_crud.get_done db tid = PyNone ->
  fst (serve_all [PUT_done tid; PUT_done tid; DELETE_done tid; DELETE_done tid] db)
  = [200; 400; 200; 404].
Proof.
  intros E. cbn [serve_all].
  rewrite (serve_PUT_done_absent _ _ E).
  rewrite (serve_PUT_done_marked _ _ _ (get_done_after_create _ _ E)).
  rewrite (serve_DELETE_done_marked _ _ _ (get_done_after_create _ _ E)).
  rewrite delete_created_done.
  rewrite (serve_DELETE_done_absent _ _ E). reflexivity.
Qed.

(** X8: when clients only ever mark tasks that exist, no marker is left
    without its task, and every newly created task starts not done: the task
    list gains its entry with [done] false, and mark, mark, unmark, unmark
    on its id answer 200, 400, 200, 404 as in [test_done_flg]. *)
Theorem marking_existing_tasks_only (db : Store) (new_title : string) :
  reachable_marking_tasks db ->
  no_orphans db
  /\ exists t,
       outcome (run exec_db (task_router.create_task new_title) db) = Ok t
       /\ done_crud.get_done
            (final (run exec_db (task_router.create_task new_title) db)) (id t)
          = PyNone
       /\ task_crud.get_tasks_with_done
            (final (run exec_db (task_router.create_task new_title) db))
          = task_crud.get_tasks_with_done db ++ [mkTaskView (id t) new_title false]
       /\ fst (serve_all [PUT_done (id t); PUT_done (id t);
                          DELETE_done (id t); DELETE_done (id t)]
                         (final (run exec_db (task_router.create_task new_title) db)))
          = [200; 400; 200; 404].
Proof.
  intros Hreach. apply marking_tasks_no_orphans in Hreach as Hno.
  split; [exact Hno|].
  exists (mkTask (fresh_id (map id (tasks db))) new_title).
  assert (E : done_crud.get_done db (fresh_id (map id (tasks db))) = PyNone).
  { apply get_done_None_iff. intros d Hd Ht. apply Hno in Hd.
    rewrite Ht in Hd. now apply fresh_id_not_used in Hd. }
  unfold outcome, final. cbn [run exec_db fst snd task_router.create_task id].
  split; [reflexivity|]. split; [exact E|]. split.
  - unfold task_crud.get_tasks_with_done, task_crud.create_task.
    cbn [fst snd tasks]. rewrite map_app. cbn [map].
    unfold task_crud.view at 2. cbn [id title].
    change (task_crud.has_done _ (fresh_id (map id (tasks db))))
      with (task_crud.has_done db (fresh_id (map id (tasks db)))).
    rewrite has_done_get_done, E. reflexivity.
  - now apply serve_sequence_absent.
Qed.

Lemma marking_existing_tasks_only_witness :
  no_orphans db_marked
  /\ exists t,
       outcome (run exec_db (task_router.create_task "B") db_marked) = Ok t
       /\ done_crud.get_done
            (final (run exec_db (task_router.create_task "B") db_marked)) (id t)
          = PyNone
       /\ task_crud.get_tasks_with_done
            (final (run exec_db (task_router.create_task "B") db_marked))
          = task_crud.get_tasks_with_done db_marked ++ [mkTaskView (id t) "B" false]
       /\ fst (serve_all [PUT_done (id t); PUT_done (id t);
                          DELETE_done (id t); DELETE_done (id t)]
                         (final (run exec_db (task_router.create_task "B") db_marked)))
          = [200; 400; 200; 404].
Proof.
  apply (marking_existing_tasks_only db_marked "B"). unfold db_marked.
  apply marking_tasks_serve.
  - apply marking_tasks_serve; [apply marking_tasks_empty|]. discriminate.
  - intros tid H. injection H as <-. discriminate.
Defined.
